(** * formAccessor: the scripted form-filling conversation of [server/index.js]

    The script holds a form schema as an object literal, wraps its JSON
    text into one opening instruction for a chat model, and then plays a
    fixed exchange: five calls to the model, with three answers of its own
    pushed onto the shared message log in between.  Everything runs inside
    one [try]/[catch].

    The embedding follows the script line by line:
    - JSON values and [JSON.stringify (v, null, 2)];
    - the literal [jsonSchema] (lines 7-87) and the initial [messages]
      (lines 88-92);
    - a small state/exception monad over the objects the script can touch
      (the schema object, the message log, the console, the calls made);
    - [getResponse] (lines 95-133) and the top-level call (line 136).

    The chat model is outside the program: it is a parameter of the run.
    The embedding starts once the client of lines 3-6 exists. *)

From Stdlib Require Import ZArith List String Ascii Bool Lia DecimalString.
From Stdlib Require Import Sorted Relations.
Import ListNotations.
Open Scope string_scope.
Set Warnings "-register-all".

(** ** JSON values *)

Inductive json : Type :=
| JNull
| JBool (b : bool)
| JNum (n : Z)
| JStr (s : string)
| JArr (items : list json)
| JObj (members : list (string * json)).

Module Json.

(** Property read [o.k]: [None] stands for [undefined]. *)
Fixpoint assoc (k : string) (l : list (string * json)) : option json :=
  match l with
  | [] => None
  | (k', v) :: l' => if String.eqb k k' then Some v else assoc k l'
  end.

Definition get (k : string) (v : json) : option json :=
  match v with
  | JObj l => assoc k l
  | _ => None
  end.

Definition path (k1 k2 : string) (v : json) : option json :=
  match get k1 v with
  | Some o => get k2 o
  | None => None
  end.

Definition elements (v : option json) : list json :=
  match v with
  | Some (JArr l) => l
  | _ => []
  end.

(** *** JSON.stringify (value, null, 2) *)

Definition nl : string := String "010"%char EmptyString.
Definition dquote : ascii := "034"%char.
Definition backslash : ascii := "092"%char.

Definition hexDigit (n : nat) : ascii :=
  match n with
  | 0 => "0" | 1 => "1" | 2 => "2" | 3 => "3" | 4 => "4" | 5 => "5"
  | 6 => "6" | 7 => "7" | 8 => "8" | 9 => "9" | 10 => "a" | 11 => "b"
  | 12 => "c" | 13 => "d" | 14 => "e" | _ => "f"
  end%char.

(** One character of a quoted string: the two-character escapes, and
    [\u00xx] for the other control characters. *)
Definition escapeChar (c : ascii) : string :=
  let n := nat_of_ascii c in
  if Ascii.eqb c dquote then String backslash (String dquote EmptyString)
  else if Ascii.eqb c backslash then String backslash (String backslash EmptyString)
  else if Nat.eqb n 8 then String backslash "b"
  else if Nat.eqb n 9 then String backslash "t"
  else if Nat.eqb n 10 then String backslash "n"
  else if Nat.eqb n 12 then String backslash "f"
  else if Nat.eqb n 13 then String backslash "r"
  else if Nat.ltb n 32 then
    String backslash
      ("u00" ++ String (hexDigit (n / 16)) (String (hexDigit (n mod 16)) EmptyString))
  else String c EmptyString.

Fixpoint escape (s : string) : string :=
  match s with
  | EmptyString => EmptyString
  | String c s' => escapeChar c ++ escape s'
  end.

Definition quote (s : string) : string :=
  String dquote (escape s ++ String dquote EmptyString).

Definition number (n : Z) : string := NilZero.string_of_int (Z.to_int n).

(** [ind] is the indentation of the line the value starts on. *)
Fixpoint stringifyAt (ind : string) (v : json) {struct v} : string :=
  match v with
  | JNull => "null"
  | JBool true => "true"
  | JBool false => "false"
  | JNum n => number n
  | JStr s => quote s
  | JArr [] => "[]"
  | JArr (x :: xs) =>
      let ind' := ind ++ "  " in
      "[" ++ nl ++ ind' ++ stringifyAt ind' x
      ++ (fix rest (l : list json) : string :=
            match l with
            | [] => EmptyString
            | y :: l' => "," ++ nl ++ ind' ++ stringifyAt ind' y ++ rest l'
            end) xs
      ++ nl ++ ind ++ "]"
  | JObj [] => "{}"
  | JObj ((k, x) :: xs) =>
      let ind' := ind ++ "  " in
      "{" ++ nl ++ ind' ++ quote k ++ ": " ++ stringifyAt ind' x
      ++ (fix rest (l : list (string * json)) : string :=
            match l with
            | [] => EmptyString
            | (k', y) :: l' =>
                "," ++ nl ++ ind' ++ quote k' ++ ": " ++ stringifyAt ind' y ++ rest l'
            end) xs
      ++ nl ++ ind ++ "}"
  end.

Definition stringify (v : json) : string := stringifyAt EmptyString v.

End Json.

(** ** The schema literal (lines 7-87) *)

Definition jsonSchema : json :=
  JObj
    [ ("formTitle", JStr "Medical Intake Form");
      ("formId", JStr "form_001");
      ("fields",
        JArr
          [ JObj
              [ ("id", JStr "field_01");
                ("label", JStr "Full Name");
                ("type", JStr "text");
                ("value", JNull);
                ("required", JBool true);
                ("boundingBox",
                  JObj [ ("x", JNum 100); ("y", JNum 200);
                         ("width", JNum 300); ("height", JNum 30) ]);
                ("grouping",
                  JObj [ ("visualGroup", JStr "Personal Info");
                         ("logicalRule", JNull) ]);
                ("accessibility",
                  JObj [ ("screenReaderHint", JStr "Enter your full legal name");
                         ("tabOrder", JNum 1) ]) ];
            JObj
              [ ("id", JStr "field_02");
                ("label", JStr "Date of Birth");
                ("type", JStr "date");
                ("value", JNull);
                ("required", JBool true);
                ("boundingBox",
                  JObj [ ("x", JNum 100); ("y", JNum 250);
                         ("width", JNum 200); ("height", JNum 30) ]);
                ("grouping",
                  JObj [ ("visualGroup", JStr "Personal Info");
                         ("logicalRule", JNull) ]);
                ("accessibility",
                  JObj [ ("screenReaderHint", JStr "Enter date in MM/DD/YYYY format");
                         ("tabOrder", JNum 2) ]) ];
            JObj
              [ ("id", JStr "field_03");
                ("label", JStr "Gender");
                ("type", JStr "radio");
                ("options", JArr [ JStr "Male"; JStr "Female"; JStr "Other" ]);
                ("value", JNull);
                ("required", JBool false);
                ("boundingBox",
                  JObj [ ("x", JNum 100); ("y", JNum 300);
                         ("width", JNum 300); ("height", JNum 60) ]);
                ("grouping",
                  JObj [ ("visualGroup", JStr "Demographics");
                         ("logicalRule", JStr "selectOne") ]);
                ("accessibility",
                  JObj [ ("screenReaderHint", JStr "Select one Race option");
                         ("options",
                           JArr [ JStr "Asian";
                                  JStr "Black or African American";
                                  JStr "Hispanic or Latino";
                                  JStr "Native American or Alaska Native";
                                  JStr "Native Hawaiian or Pacific Islander";
                                  JStr "White";
                                  JStr "Two or More Races";
                                  JStr "Prefer not to say" ]);
                         ("value", JNull);
                         ("required", JBool false);
                         ("tabOrder", JNum 3) ]) ] ]) ].

(** ** Reading a schema *)

Module Schema.

Definition fields (s : json) : list json := Json.elements (Json.get "fields" s).

Definition id (f : json) : option json := Json.get "id" f.
Definition label (f : json) : option json := Json.get "label" f.
Definition type (f : json) : option json := Json.get "type" f.
Definition value (f : json) : option json := Json.get "value" f.
Definition options (f : json) : list json := Json.elements (Json.get "options" f).
Definition tabOrder (f : json) : option json := Json.path "accessibility" "tabOrder" f.
Definition logicalRule (f : json) : option json := Json.path "grouping" "logicalRule" f.
Definition visualGroup (f : json) : option json := Json.path "grouping" "visualGroup" f.

Definition required (f : json) : bool :=
  match Json.get "required" f with
  | Some (JBool true) => true
  | _ => false
  end.

(** A value that holds an answer: anything but [undefined], [null] and
    the empty string. *)
Definition answered (v : option json) : bool :=
  match v with
  | None | Some JNull | Some (JStr EmptyString) => false
  | Some _ => true
  end.

Definition field (i : string) (s : json) : option json :=
  find (fun f => match id f with Some (JStr j) => String.eqb i j | _ => false end)
       (fields s).

End Schema.

(** ** Messages, requests and the chat model *)

Inductive Role : Type := user | assistant.

(** [content] is a string or [null]. *)
Record message : Type := Message { role : Role; content : option string }.

Record request : Type := Request { model : string; sent : list message }.

Inductive error : Type :=
| Timeout
| ApiError (reason : string).

(** What one [await openai.chat.completions.create (...)] followed by
    [.choices[0].message.content] comes to: the content of the first
    choice, or whatever was thrown on the way (a rejected promise, a
    timeout, a reply without choices). *)
Inductive completion : Type :=
| Content (c : option string)
| Throws (e : error).

(** The model answers the [n]-th call of the run on the request it gets.
    Two calls with the same request need not get the same answer. *)
Definition Model : Type := nat -> request -> completion.

(** ** The objects the script can touch *)

Record World : Type := mkWorld {
  w_jsonSchema : json;                       (* the object bound to [jsonSchema] *)
  w_messages : list message;                 (* the array bound to [messages] *)
  w_stdout : list string;                    (* lines of [console.log] *)
  w_stderr : list (string * error);          (* arguments of [console.error] *)
  w_api : list (request * completion)        (* calls made to the model so far *)
}.

(** ** A state/exception monad that records the worlds it goes through *)

Inductive result (A : Type) : Type :=
| Ok (a : A)
| Thrown (e : error).
Arguments Ok {A} a.
Arguments Thrown {A} e.

Record Run (A : Type) : Type := mkRun {
  outcome : result A;
  final : World;
  visited : list World            (* the world after each effect, in order *)
}.
Arguments mkRun {A}.
Arguments outcome {A}.
Arguments final {A}.
Arguments visited {A}.

Definition M (A : Type) : Type := World -> Run A.

Definition ret {A} (a : A) : M A := fun w => mkRun (Ok a) w [].

Definition bind {A B} (m : M A) (k : A -> M B) : M B :=
  fun w =>
    match m w with
    | mkRun (Ok a) w1 t1 =>
        match k a w1 with
        | mkRun o w2 t2 => mkRun o w2 (t1 ++ t2)
        end
    | mkRun (Thrown e) w1 t1 => mkRun (Thrown e) w1 t1
    end.

Definition try_catch {A} (body : M A) (handler : error -> M A) : M A :=
  fun w =>
    match body w with
    | mkRun (Ok a) w1 t1 => mkRun (Ok a) w1 t1
    | mkRun (Thrown e) w1 t1 =>
        match handler e w1 with
        | mkRun o w2 t2 => mkRun o w2 (t1 ++ t2)
        end
    end.

Definition effect (f : World -> World) : M unit :=
  fun w => mkRun (Ok tt) (f w) [f w].

Declare Scope script_scope.
Delimit Scope script_scope with script.
Notation "x <- m ;; k" := (bind m (fun x => k))
  (at level 61, m at next level, right associativity) : script_scope.
Notation "m ;; k" := (bind m (fun _ => k))
  (at level 61, right associativity) : script_scope.

(** [`BOT:${x}`] and [console.log (x)] print [null] for a null content. *)
Definition show (c : option string) : string :=
  match c with
  | Some s => s
  | None => "null"
  end.

Definition console_log (line : string) : M unit :=
  effect (fun w => mkWorld (w_jsonSchema w) (w_messages w)
                           (w_stdout w ++ [line]) (w_stderr w) (w_api w)).

Definition console_error (what : string) (e : error) : M unit :=
  effect (fun w => mkWorld (w_jsonSchema w) (w_messages w)
                           (w_stdout w) (w_stderr w ++ [(what, e)]) (w_api w)).

(** [messages.push (m)] *)
Definition push (m : message) : M unit :=
  effect (fun w => mkWorld (w_jsonSchema w) (w_messages w ++ [m])
                           (w_stdout w) (w_stderr w) (w_api w)).

(** ** The initial message log (lines 88-92) *)

Definition instruction : string :=
  "You are a helpful assistant guiding someone through filling out a digital form. Ask only one clear and friendly question at a time based on the fields in this JSON schema. Prioritize required fields first, and wait for user input before continuing.

when finshed with the form send it back to the user completely filled out in a neat form Here is the JSON schema:

".

(** The schema literal is read in one place only, here; the script is
    embedded as a function of it, and [program] runs it on [jsonSchema]. *)
Definition messages (schema : json) : list message :=
  [ Message user (Some (instruction ++ Json.stringify schema)) ].

Section Script.

Variable gpt4 : Model.

Local Open Scope script_scope.

(** [(await openai.chat.completions.create ({model: 'gpt-4', messages}))
    .choices[0].message.content]: the request carries the log as it is
    at the time of the call. *)
Definition create : M (option string) :=
  fun w =>
    let q := Request "gpt-4" (w_messages w) in
    let c := gpt4 (List.length (w_api w)) q in
    let w' := mkWorld (w_jsonSchema w) (w_messages w) (w_stdout w) (w_stderr w)
                      (w_api w ++ [(q, c)])%list in
    mkRun (match c with Content r => Ok r | Throws e => Thrown e end) w' [w'].

(** Lines 95-133. *)
Definition getResponse : M unit :=
  try_catch
    (repy <- create ;;
     console_log ("BOT:" ++ show repy) ;;
     push (Message assistant repy) ;;
     push (Message user (Some "Youdahe Asfaw")) ;;
     DOBreply <- create ;;
     console_log ("BOT:" ++ show DOBreply) ;;
     push (Message assistant DOBreply) ;;
     push (Message user (Some "04/29/2006")) ;;
     DOB <- create ;;
     console_log (show DOB) ;;
     GenderReply <- create ;;
     console_log ("BOT:" ++ show GenderReply) ;;
     push (Message assistant GenderReply) ;;
     push (Message user (Some "Male")) ;;
     genderResponse <- create ;;
     console_log (show genderResponse))
    (fun error => console_error "Error getting response:" error).

(** The module as a whole: the bindings of lines 7-92, then line 136. *)
Definition start (schema : json) : World :=
  mkWorld schema (messages schema) [] [] [].

Definition main (schema : json) : Run unit := getResponse (start schema).

Definition program : Run unit := main jsonSchema.

End Script.

(** * Properties of a run: definitions *)

(** ** What a computation leaves alone *)

(** [m] never changes what [observe] sees: not in the world it ends in,
    and in none of the worlds it goes through. *)
Definition keeps {T A} (observe : World -> T) (m : M A) : Prop :=
  forall w,
    observe (final (m w)) = observe w /\
    Forall (fun w' => observe w' = observe w) (visited (m w)).

(** The worlds recorded are those the computation goes through: the last
    of them is the one it ends in. *)
Definition tracks {A} (m : M A) : Prop :=
  forall w, last (visited (m w)) w = final (m w).

(** ** The six ways the conversation can go *)

Definition ask (log : list message) : request := Request "gpt-4" log.
Definition said (reply : option string) : message := Message assistant reply.
Definition typed (answer : string) : message := Message user (Some answer).
Definition caught (e : error) : string * error := ("Error getting response:", e).

Section Shape.

Variable gpt4 : Model.
Variable schema : json.

(** The log after each of the three scripted answers. *)
Definition log1 r1 : list message :=
  (messages schema ++ [said r1; typed "Youdahe Asfaw"])%list.
Definition log2 r1 r2 : list message :=
  (log1 r1 ++ [said r2; typed "04/29/2006"])%list.
Definition log3 r1 r2 r4 : list message :=
  (log2 r1 r2 ++ [said r4; typed "Male"])%list.

(** The world the run ends in, by the call at which the model first
    fails, if it does. *)
Inductive Transcript : World -> Prop :=
| stops_at_1 e :
    gpt4 0 (ask (messages schema)) = Throws e ->
    Transcript (mkWorld schema (messages schema) [] [caught e]
                  [(ask (messages schema), Throws e)])
| stops_at_2 r1 e :
    gpt4 0 (ask (messages schema)) = Content r1 ->
    gpt4 1 (ask (log1 r1)) = Throws e ->
    Transcript (mkWorld schema (log1 r1) ["BOT:" ++ show r1] [caught e]
                  [(ask (messages schema), Content r1);
                   (ask (log1 r1), Throws e)])
| stops_at_3 r1 r2 e :
    gpt4 0 (ask (messages schema)) = Content r1 ->
    gpt4 1 (ask (log1 r1)) = Content r2 ->
    gpt4 2 (ask (log2 r1 r2)) = Throws e ->
    Transcript (mkWorld schema (log2 r1 r2)
                  ["BOT:" ++ show r1; "BOT:" ++ show r2] [caught e]
                  [(ask (messages schema), Content r1);
                   (ask (log1 r1), Content r2);
                   (ask (log2 r1 r2), Throws e)])
| stops_at_4 r1 r2 r3 e :
    gpt4 0 (ask (messages schema)) = Content r1 ->
    gpt4 1 (ask (log1 r1)) = Content r2 ->
    gpt4 2 (ask (log2 r1 r2)) = Content r3 ->
    gpt4 3 (ask (log2 r1 r2)) = Throws e ->
    Transcript (mkWorld schema (log2 r1 r2)
                  ["BOT:" ++ show r1; "BOT:" ++ show r2; show r3] [caught e]
                  [(ask (messages schema), Content r1);
                   (ask (log1 r1), Content r2);
                   (ask (log2 r1 r2), Content r3);
                   (ask (log2 r1 r2), Throws e)])
| stops_at_5 r1 r2 r3 r4 e :
    gpt4 0 (ask (messages schema)) = Content r1 ->
    gpt4 1 (ask (log1 r1)) = Content r2 ->
    gpt4 2 (ask (log2 r1 r2)) = Content r3 ->
    gpt4 3 (ask (log2 r1 r2)) = Content r4 ->
    gpt4 4 (ask (log3 r1 r2 r4)) = Throws e ->
    Transcript (mkWorld schema (log3 r1 r2 r4)
                  ["BOT:" ++ show r1; "BOT:" ++ show r2; show r3;
                   "BOT:" ++ show r4] [caught e]
                  [(ask (messages schema), Content r1);
                   (ask (log1 r1), Content r2);
                   (ask (log2 r1 r2), Content r3);
                   (ask (log2 r1 r2), Content r4);
                   (ask (log3 r1 r2 r4), Throws e)])
| completes r1 r2 r3 r4 r5 :
    gpt4 0 (ask (messages schema)) = Content r1 ->
    gpt4 1 (ask (log1 r1)) = Content r2 ->
    gpt4 2 (ask (log2 r1 r2)) = Content r3 ->
    gpt4 3 (ask (log2 r1 r2)) = Content r4 ->
    gpt4 4 (ask (log3 r1 r2 r4)) = Content r5 ->
    Transcript (mkWorld schema (log3 r1 r2 r4)
                  ["BOT:" ++ show r1; "BOT:" ++ show r2; show r3;
                   "BOT:" ++ show r4; show r5] []
                  [(ask (messages schema), Content r1);
                   (ask (log1 r1), Content r2);
                   (ask (log2 r1 r2), Content r3);
                   (ask (log2 r1 r2), Content r4);
                   (ask (log3 r1 r2 r4), Content r5)]).

End Shape.

(** ** Reading a run *)

Definition isUser (m : message) : bool :=
  match role m with user => true | assistant => false end.

Definition isAssistant (m : message) : bool :=
  match role m with user => false | assistant => true end.

(** What was pushed onto the log after its initial literal. *)
Definition appended (schema : json) (w : World) : list message :=
  skipn (List.length (messages schema)) (w_messages w).

Definition userSide (schema : json) (w : World) : list (option string) :=
  map content (filter isUser (appended schema w)).

(** The replies of the model that became questions on the log. *)
Definition prompts (schema : json) (w : World) : list (option string) :=
  map content (filter isAssistant (appended schema w)).

(** The three answers written into [getResponse] (lines 106, 115, 124). *)
Definition scripted : list (option string) :=
  [Some "Youdahe Asfaw"; Some "04/29/2006"; Some "Male"].

Definition succeeded (x : request * completion) : bool :=
  match snd x with Content _ => true | Throws _ => false end.

Definition successes (w : World) : nat := List.length (filter succeeded (w_api w)).

(** How many scripted answers have been pushed once [n] calls have
    succeeded: the third call (line 116) is followed by no push. *)
Definition answersAfter (n : nat) : nat :=
  match n with
  | 0 => 0
  | 1 => 1
  | 2 | 3 => 2
  | _ => 3
  end.

(** The [value] of the field with the given [id] in the schema object. *)
Definition answerOf (i : string) (w : World) : option json :=
  match Schema.field i (w_jsonSchema w) with
  | Some f => Schema.value f
  | None => None
  end.

Fixpoint occurs (needle hay : string) : bool :=
  String.prefix needle hay
  || match hay with
     | EmptyString => false
     | String _ rest => occurs needle rest
     end.

(** Every text the run wrote: the whole log and the console. *)
Definition texts (w : World) : list string :=
  (map (fun m => show (content m)) (w_messages w) ++ w_stdout w)%list.

Definition mentions (s : string) (w : World) : bool := existsb (occurs s) (texts w).

(** Label, type, required flag and tab order of a field. *)
Definition summary (f : json) : option json * option json * bool * option json :=
  (Schema.label f, Schema.type f, Schema.required f, Schema.tabOrder f).

Definition genderField : option json := Schema.field "field_03" jsonSchema.

(** ** What is asked of a run *)

(** Some call is made after every call that timed out. *)
Definition proceedsAfterTimeout (w : World) : Prop :=
  forall pre q post, w_api w = (pre ++ (q, Throws Timeout) :: post)%list -> post <> [].



(** A question that is a field's label, word for word, offers that field. *)
Definition labelled (p : option string) (f : json) : bool :=
  match p, Schema.label f with
  | Some s, Some (JStr l) => String.eqb s l
  | _, _ => false
  end.

Definition offered (schema : json) (w : World) : list json :=
  flat_map (fun p => filter (labelled p) (Schema.fields schema)) (prompts schema w).

Definition order (f : json) : Z :=
  match Schema.tabOrder f with
  | Some (JNum n) => n
  | _ => 0%Z
  end.

Fixpoint nondecreasing (l : list Z) : bool :=
  match l with
  | x :: (y :: _) as rest => (x <=? y)%Z && nondecreasing rest
  | _ => true
  end.

(** Type and number of options of a field. *)
Definition choices (f : json) : option json * nat :=
  (Schema.type f, List.length (Schema.options f)).

Definition selectOne (f : json) : bool :=
  match Schema.logicalRule f with
  | Some (JStr r) => String.eqb r "selectOne"
  | _ => false
  end.

Definition inGroup (g : string) (f : json) : bool :=
  match Schema.visualGroup f with
  | Some (JStr v) => String.eqb g v
  | _ => false
  end.

(** The fields of the [selectOne] group [g], and those that hold a value. *)
Definition members (g : string) (doc : json) : list json :=
  filter (fun f => inGroup g f && selectOne f) (Schema.fields doc).

Definition holders (g : string) (doc : json) : list json :=
  filter (fun f => Schema.answered (Schema.value f)) (members g doc).

(** ** Models used as concrete inputs *)

(** Answers every call with the same polite line. *)
Definition courteous : Model := fun _ _ => Content (Some "Thank you.").

(** Cannot be reached at all. *)
Definition unreachable : Model := fun _ _ => Throws (ApiError "connect ECONNREFUSED").

(** Answers three calls, then times out on every later one. *)
Definition stalls : Model :=
  fun n _ => if Nat.ltb n 3 then Content (Some "Thank you.") else Throws Timeout.

(** Asks about the fields from last to first, by their labels. *)
Definition backwards : Model :=
  fun n _ =>
    match n with
    | 0 => Content (Some "Gender")
    | 1 => Content (Some "Date of Birth")
    | 3 => Content (Some "Full Name")
    | _ => Content (Some "Thank you.")
    end.

(** ** Further readings of a run *)

Definition prefixOf {A} (l l' : list A) : Prop := exists more, l' = (l ++ more)%list.

(** [w'] is [w] later on: the same schema object, and a log, a console and
    a list of calls that have only grown at their end. *)
Definition extends (w w' : World) : Prop :=
  w_jsonSchema w' = w_jsonSchema w /\
  prefixOf (w_messages w) (w_messages w') /\
  prefixOf (w_stdout w) (w_stdout w') /\
  prefixOf (w_stderr w) (w_stderr w') /\
  prefixOf (w_api w) (w_api w').

(** Each world [m] goes through is related to the one before it. *)
Definition paced {A} (R : World -> World -> Prop) (m : M A) : Prop :=
  forall w, Sorted R (w :: visited (m w)).

(** The contents the model returned, in the order of the calls. *)
Definition replies (api : list (request * completion)) : list (option string) :=
  flat_map (fun x => match snd x with Content c => [c] | Throws _ => [] end) api.

(** What the script prints for the replies from the [i]-th on: the third
    and the fifth (lines 117 and 126) without the [BOT:] mark. *)
Fixpoint printedFrom (i : nat) (rs : list (option string)) : list string :=
  match rs with
  | [] => []
  | r :: rs' =>
      (if Nat.eqb i 2 || Nat.eqb i 4 then show r else "BOT:" ++ show r)
      :: printedFrom (S i) rs'
  end.

(** [k] exchanges: a reply of the model, then an answer of the script. *)
Fixpoint turns (k : nat) : list Role :=
  match k with
  | 0 => []
  | S k' => assistant :: user :: turns k'
  end.

(** The request is one the script can send: to gpt-4, opening with the
    instruction message, closing with a message of the user's role. *)
Definition wellFormed (schema : json) (q : request) : Prop :=
  model q = "gpt-4" /\
  prefixOf (messages schema) (sent q) /\
  role (last (sent q) (said None)) = user.

(** Differs from [courteous] in its third and fifth reply only. *)
Definition chatty : Model :=
  fun n _ =>
    match n with
    | 2 | 4 => Content (Some "Anything else?")
    | _ => Content (Some "Thank you.")
    end.

(** Returns a first completion without content, then answers. *)
Definition silentFirst : Model :=
  fun n _ =>
    match n with
    | 0 => Content None
    | _ => Content (Some "Thank you.")
    end.

(** The later request carries the whole conversation of the earlier one. *)
Definition carries (x y : request * completion) : Prop :=
  prefixOf (sent (fst x)) (sent (fst y)).

(** * Properties of a run: proofs *)

(** ** Frame lemmas *)

Section Frame.

Context {T : Type} (observe : World -> T).

Lemma keeps_ret {A} (a : A) : keeps observe (ret a).
Proof. intro w; split; [reflexivity | constructor]. Qed.

Lemma keeps_effect (f : World -> World) :
  (forall w, observe (f w) = observe w) -> keeps observe (effect f).
Proof.
  intros Hf w; split; cbn; [apply Hf | constructor; [apply Hf | constructor]].
Qed.

Lemma keeps_bind {A B} (m : M A) (k : A -> M B) :
  keeps observe m -> (forall a, keeps observe (k a)) -> keeps observe (bind m k).
Proof.
  intros Hm Hk w. unfold bind.
  destruct (Hm w) as [Hfin Hvis].
  destruct (m w) as [[a | e] w1 t1]; cbn in *.
  - destruct (Hk a w1) as [Hfin' Hvis'].
    destruct (k a w1) as [o w2 t2]; cbn in *.
    split; [congruence | ].
    apply Forall_app; split; [assumption | ].
    eapply Forall_impl; [ | exact Hvis']. cbn; intros; congruence.
  - split; assumption.
Qed.

Lemma keeps_try_catch {A} (body : M A) (handler : error -> M A) :
  keeps observe body -> (forall e, keeps observe (handler e)) ->
  keeps observe (try_catch body handler).
Proof.
  intros Hb Hh w. unfold try_catch.
  destruct (Hb w) as [Hfin Hvis].
  destruct (body w) as [[a | e] w1 t1]; cbn in *.
  - split; assumption.
  - destruct (Hh e w1) as [Hfin' Hvis'].
    destruct (handler e w1) as [o w2 t2]; cbn in *.
    split; [congruence | ].
    apply Forall_app; split; [assumption | ].
    eapply Forall_impl; [ | exact Hvis']. cbn; intros; congruence.
Qed.

End Frame.

Lemma last_append {A} (l1 l2 : list A) (d : A) :
  last (l1 ++ l2) d = last l2 (last l1 d).
Proof.
  revert l1 d.
  induction l2 as [ | y l2 IH] using rev_ind; intros l1 d.
  - now rewrite app_nil_r.
  - now rewrite app_assoc, !last_last.
Qed.

Lemma tracks_effect (f : World -> World) : tracks (effect f).
Proof. intro w; reflexivity. Qed.

Lemma tracks_bind {A B} (m : M A) (k : A -> M B) :
  tracks m -> (forall a, tracks (k a)) -> tracks (bind m k).
Proof.
  intros Hm Hk w. unfold bind.
  specialize (Hm w).
  destruct (m w) as [[a | e] w1 t1]; cbn in *; [ | exact Hm].
  specialize (Hk a w1).
  destruct (k a w1) as [o w2 t2]; cbn in *.
  now rewrite last_append, Hm.
Qed.

Lemma tracks_try_catch {A} (body : M A) (handler : error -> M A) :
  tracks body -> (forall e, tracks (handler e)) -> tracks (try_catch body handler).
Proof.
  intros Hb Hh w. unfold try_catch.
  specialize (Hb w).
  destruct (body w) as [[a | e] w1 t1]; cbn in *; [exact Hb | ].
  specialize (Hh e w1).
  destruct (handler e w1) as [o w2 t2]; cbn in *.
  now rewrite last_append, Hb.
Qed.

Lemma create_tracks gpt4 : tracks (create gpt4).
Proof. intro w; reflexivity. Qed.

Lemma getResponse_tracks gpt4 : tracks (getResponse gpt4).
Proof.
  unfold getResponse, console_log, console_error, push.
  repeat first [ apply tracks_try_catch | apply tracks_bind | apply tracks_effect
               | apply create_tracks | intro ].
Qed.

Create HintDb frame.
#[export] Hint Resolve keeps_ret keeps_bind keeps_try_catch : frame.

Lemma console_log_keeps_schema line : keeps w_jsonSchema (console_log line).
Proof. apply keeps_effect; reflexivity. Qed.

Lemma console_error_keeps_schema what e : keeps w_jsonSchema (console_error what e).
Proof. apply keeps_effect; reflexivity. Qed.

Lemma push_keeps_schema m : keeps w_jsonSchema (push m).
Proof. apply keeps_effect; reflexivity. Qed.

Lemma create_keeps_schema gpt4 : keeps w_jsonSchema (create gpt4).
Proof. intro w; split; cbn; [reflexivity | constructor; [reflexivity | constructor]]. Qed.

#[export] Hint Resolve console_log_keeps_schema console_error_keeps_schema
  push_keeps_schema create_keeps_schema : frame.

Lemma getResponse_keeps_schema gpt4 : keeps w_jsonSchema (getResponse gpt4).
Proof. unfold getResponse. auto 40 with frame. Qed.

(** ** Every run has one of the six shapes *)

Section Conversation.

Variable gpt4 : Model.
Variable schema : json.

(** One call: unfold [create] at the call the run is blocked on and
    split on what the model returns. *)
Ltac call :=
  match goal with
  | |- context [gpt4 ?n ?q] =>
      let E := fresh "E" in
      destruct (gpt4 n q) eqn:E; cbn -[String.append Json.stringify instruction]
  end.

(** Whatever the model does, [getResponse] returns normally, in one of
    the six worlds of [Transcript]. *)
Lemma main_transcript :
  outcome (main gpt4 schema) = Ok tt /\
  Transcript gpt4 schema (final (main gpt4 schema)).
Proof.
  unfold main, getResponse, try_catch, start, messages.
  cbn -[String.append Json.stringify instruction].
  repeat call; (split; [reflexivity | econstructor; eassumption]).
Qed.

End Conversation.

(** ** The schema object is never written (C9) *)

Lemma main_keeps_schema gpt4 schema :
  w_jsonSchema (final (main gpt4 schema)) = schema /\
  Forall (fun w => w_jsonSchema w = schema) (start schema :: visited (main gpt4 schema)).
Proof.
  destruct (getResponse_keeps_schema gpt4 (start schema)) as [Hfin Hvis].
  split; [exact Hfin | constructor; [reflexivity | exact Hvis]].
Qed.

Lemma jsonSchema_values_null :
  Forall (fun f => Schema.value f = Some JNull) (Schema.fields jsonSchema).
Proof. repeat constructor. Qed.

(** C9. In every world of every run of the script, from the bindings at
    the top of the module to the end of [getResponse], the schema object
    is the literal [jsonSchema]: no effect of the script assigns to it.
    The world the run ends in is the last of these, and there every
    field's [value] is still [null]. *)
Theorem jsonSchema_never_assigned (gpt4 : Model) :
  Forall (fun w => w_jsonSchema w = jsonSchema)
         (start jsonSchema :: visited (program gpt4)) /\
  last (visited (program gpt4)) (start jsonSchema) = final (program gpt4) /\
  w_jsonSchema (final (program gpt4)) = jsonSchema /\
  Forall (fun f => Schema.value f = Some JNull)
         (Schema.fields (w_jsonSchema (final (program gpt4)))).
Proof.
  unfold program.
  destruct (main_keeps_schema gpt4 jsonSchema) as [Hfin Hvis].
  split; [exact Hvis | ].
  split; [apply getResponse_tracks | ].
  split; [exact Hfin | ].
  rewrite Hfin. exact jsonSchema_values_null.
Qed.

(** ** The user side of the log (C10) *)

Lemma userSide_transcript gpt4 schema w :
  Transcript gpt4 schema w ->
  userSide schema w = firstn (answersAfter (successes w)) scripted.
Proof. intros T; destruct T; reflexivity. Qed.

(** C10, as stated, fails when a call to the model fails: with a model
    that cannot be reached, the first call throws, the [catch] ends the
    function, and no user message has been appended. *)
Lemma user_side_empty_when_model_unreachable :
  userSide jsonSchema (final (program unreachable)) = [] /\
  userSide jsonSchema (final (program unreachable)) <> scripted.
Proof. split; [reflexivity | discriminate]. Qed.

(** C10, amended. The user-role messages appended to the log are the
    first [k] of the three constants, in order, where [k] depends only on
    how many calls to the model succeeded (0, 1, 2, 2, 3, 3 for 0 to 5
    successes): never on what the model replied, and never on any input
    read from a user.  They are all three as soon as four calls succeed. *)
Theorem user_side_is_a_prefix_of_the_script (gpt4 : Model) (schema : json) :
  userSide schema (final (main gpt4 schema))
  = firstn (answersAfter (successes (final (main gpt4 schema)))) scripted.
Proof.
  apply (userSide_transcript gpt4), main_transcript.
Qed.

(** ** Runs in which no call fails *)

Lemma completed_run gpt4 schema :
  w_stderr (final (main gpt4 schema)) = [] ->
  exists r1 r2 r3 r4 r5,
    final (main gpt4 schema)
    = mkWorld schema (log3 schema r1 r2 r4)
        ["BOT:" ++ show r1; "BOT:" ++ show r2; show r3; "BOT:" ++ show r4; show r5]
        []
        [(ask (messages schema), Content r1);
         (ask (log1 schema r1), Content r2);
         (ask (log2 schema r1 r2), Content r3);
         (ask (log2 schema r1 r2), Content r4);
         (ask (log3 schema r1 r2 r4), Content r5)].
Proof.
  destruct (main_transcript gpt4 schema) as [_ T].
  destruct T; intro Herr; try discriminate Herr.
  now exists r1, r2, r3, r4, r5.
Qed.

Lemma answerOf_final gpt4 i :
  answerOf i (final (program gpt4)) = answerOf i (start jsonSchema).
Proof.
  unfold answerOf, program.
  now rewrite (proj1 (main_keeps_schema gpt4 jsonSchema)).
Qed.

(** ** Scenario A: name and date of birth (C1) *)

(** C1, as stated, fails: in a run where every call succeeds, the two
    utterances have been sent, yet the form holds neither answer, and
    the normalized date [2006-04-29] occurs in nothing the run wrote,
    neither on the log nor on the console; the date is there as typed. *)
Lemma scenario_A_document_is_not_filled :
  w_stderr (final (program courteous)) = [] /\
  ~ (answerOf "field_01" (final (program courteous)) = Some (JStr "Youdahe Asfaw") /\
     answerOf "field_02" (final (program courteous)) = Some (JStr "2006-04-29")) /\
  mentions "2006-04-29" (final (program courteous)) = false /\
  mentions "04/29/2006" (final (program courteous)) = true.
Proof.
  split; [reflexivity | split; [ | split; vm_compute; reflexivity]].
  intros [H _]. vm_compute in H. discriminate H.
Qed.

(** C1, amended. The schema's first two fields are Full Name (text,
    required, tab order 1) and Date of Birth (date, required, tab order
    2), followed by Gender (radio, not required, tab order 3).  In a run
    where no call fails, the log gains, after each reply of the model, the
    utterances "Youdahe Asfaw", then "04/29/2006" exactly as typed (no
    normalization), then "Male"; the values of both fields in the schema
    object stay [null]. *)
Theorem scenario_A_answers_are_logged_as_typed (gpt4 : Model) :
  w_stderr (final (program gpt4)) = [] ->
  map summary (Schema.fields jsonSchema)
  = [ (Some (JStr "Full Name"), Some (JStr "text"), true, Some (JNum 1));
      (Some (JStr "Date of Birth"), Some (JStr "date"), true, Some (JNum 2));
      (Some (JStr "Gender"), Some (JStr "radio"), false, Some (JNum 3)) ] /\
  (exists r1 r2 r4,
     appended jsonSchema (final (program gpt4))
     = [ said r1; typed "Youdahe Asfaw"; said r2; typed "04/29/2006";
         said r4; typed "Male" ]) /\
  answerOf "field_01" (final (program gpt4)) = Some JNull /\
  answerOf "field_02" (final (program gpt4)) = Some JNull.
Proof.
  intros Hdone. split; [reflexivity | split].
  - unfold program in *.
    destruct (completed_run gpt4 jsonSchema Hdone) as (r1 & r2 & r3 & r4 & r5 & Hw).
    exists r1, r2, r4. rewrite Hw. reflexivity.
  - rewrite !answerOf_final. split; reflexivity.
Qed.

Lemma scenario_A_answers_are_logged_as_typed_witness :
  w_stderr (final (program courteous)) = [] /\
  (exists r1 r2 r4,
     appended jsonSchema (final (program courteous))
     = [ said r1; typed "Youdahe Asfaw"; said r2; typed "04/29/2006";
         said r4; typed "Male" ]).
Proof.
  split; [reflexivity | ].
  apply (scenario_A_answers_are_logged_as_typed courteous). reflexivity.
Defined.

(** ** Scenario B: the gender field (C5) *)

(** C5, as stated, fails: "Male" has been uttered in a run where every
    call succeeded, and the gender field still holds no value; nothing
    was rejected, and "banana" is nowhere an utterance of the script. *)
Lemma Male_is_sent_but_not_recorded :
  w_stderr (final (program courteous)) = [] /\
  userSide jsonSchema (final (program courteous)) = scripted /\
  answerOf "field_03" (final (program courteous)) <> Some (JStr "Male") /\
  mentions "banana" (final (program courteous)) = false.
Proof.
  split; [reflexivity | split; [reflexivity | split; [ | vm_compute; reflexivity]]].
  intro H. vm_compute in H. discriminate H.
Qed.

(** C5, amended. The Gender field (field_03, type radio, not required) has
    the options Male, Female, Other.  The script utters for it the one
    answer "Male", which is one of these options letter for letter; it
    checks nothing, counts no retry (a run without failure makes five
    calls and sends three answers, whatever the model says), and the
    field's value in the schema object stays [null]. *)
Theorem gender_answer_is_sent_unchecked (gpt4 : Model) :
  w_stderr (final (program gpt4)) = [] ->
  option_map summary genderField
  = Some (Some (JStr "Gender"), Some (JStr "radio"), false, Some (JNum 3)) /\
  option_map Schema.options genderField
  = Some [JStr "Male"; JStr "Female"; JStr "Other"] /\
  userSide jsonSchema (final (program gpt4)) = scripted /\
  last (w_messages (final (program gpt4))) (typed EmptyString) = typed "Male" /\
  List.length (w_api (final (program gpt4))) = 5 /\
  answerOf "field_03" (final (program gpt4)) = Some JNull.
Proof.
  intros Hdone. split; [reflexivity | split; [reflexivity | ]].
  rewrite answerOf_final. unfold program in *.
  destruct (completed_run gpt4 jsonSchema Hdone) as (r1 & r2 & r3 & r4 & r5 & Hw).
  rewrite Hw. repeat split; reflexivity.
Qed.

Lemma gender_answer_is_sent_unchecked_witness :
  w_stderr (final (program courteous)) = [] /\
  last (w_messages (final (program courteous))) (typed EmptyString) = typed "Male" /\
  answerOf "field_03" (final (program courteous)) = Some JNull.
Proof.
  split; [reflexivity | ].
  destruct (gender_answer_is_sent_unchecked courteous) as (_ & _ & _ & Hlast & _ & Hval);
    [reflexivity | split; assumption].
Defined.

(** ** A failing call ends the conversation (C7) *)

(** C7, as stated, fails: when the first call about the gender field (not
    required) times out, the run stops there.  One call has failed, not
    three; none is made after it; the answer "Male" is never sent. *)
Lemma no_call_follows_a_timeout :
  map snd (w_api (final (program stalls)))
  = [ Content (Some "Thank you."); Content (Some "Thank you.");
      Content (Some "Thank you."); Throws Timeout ] /\
  userSide jsonSchema (final (program stalls))
  = [Some "Youdahe Asfaw"; Some "04/29/2006"] /\
  ~ proceedsAfterTimeout (final (program stalls)).
Proof.
  split; [reflexivity | split; [reflexivity | ]].
  intro H.
  apply (H (firstn 3 (w_api (final (program stalls))))
           (ask (log2 jsonSchema (Some "Thank you.") (Some "Thank you."))) []);
    reflexivity.
Qed.

(** C7, amended. A call to the model that throws (a timeout or anything
    else) does not crash the program: it is caught, reported once through
    [console.error], and [getResponse] returns normally.  There is no
    retry, no counter and no skipped state: the failed call is the last
    call of the run, whichever field was being asked about. *)
Theorem a_failed_call_is_caught_and_ends_the_run
    (gpt4 : Model) (schema : json) (k : nat) (q : request) (e : error) :
  nth_error (w_api (final (main gpt4 schema))) k = Some (q, Throws e) ->
  outcome (main gpt4 schema) = Ok tt /\
  List.length (w_api (final (main gpt4 schema))) = S k /\
  successes (final (main gpt4 schema)) = k /\
  w_stderr (final (main gpt4 schema)) = [caught e].
Proof.
  destruct (main_transcript gpt4 schema) as [Hok T].
  intros Hk. split; [exact Hok | ].
  destruct T; destruct k as [|[|[|[|[|[|k]]]]]];
    cbn in Hk; try discriminate Hk;
    injection Hk as _ <-; repeat split; reflexivity.
Qed.

Lemma a_failed_call_is_caught_and_ends_the_run_witness :
  nth_error (w_api (final (main stalls jsonSchema))) 3
  = Some (ask (log2 jsonSchema (Some "Thank you.") (Some "Thank you.")), Throws Timeout) /\
  outcome (main stalls jsonSchema) = Ok tt /\
  List.length (w_api (final (main stalls jsonSchema))) = 4 /\
  w_stderr (final (main stalls jsonSchema)) = [caught Timeout].
Proof.
  split; [reflexivity | ].
  destruct (a_failed_call_is_caught_and_ends_the_run stalls jsonSchema 3
              (ask (log2 jsonSchema (Some "Thank you.") (Some "Thank you.")))
              Timeout) as (Hok & Hlen & _ & Herr);
    [reflexivity | repeat split; assumption].
Defined.

(** ** Required fields (C2) *)



(** ** Who chooses the next field (C3) *)

(** C3, as stated, fails: the questions are the model's, and a model that
    asks for Gender, then Date of Birth, then Full Name is followed as it
    is; the script answers "Youdahe Asfaw" to the first question all the
    same. *)
Lemma fields_offered_in_decreasing_tabOrder :
  map order (offered jsonSchema (final (program backwards))) = [3; 2; 1]%Z /\
  nondecreasing (map order (offered jsonSchema (final (program backwards)))) = false /\
  userSide jsonSchema (final (program backwards)) = scripted.
Proof. repeat split; reflexivity. Qed.

(** C3, amended. The program does not choose the field to offer: in a run
    without failure the questions put on the log are the first, second and
    fourth replies of the model, printed as returned, and the three
    scripted answers follow them in their fixed order whatever was asked.
    What the code itself carries about order is the instruction, which
    asks the model to put required fields first and says nothing of tab
    order, and the schema literal, whose fields are listed by increasing
    tab order 1, 2, 3 with the two required ones first. *)
Theorem questions_are_the_replies_of_the_model (gpt4 : Model) (schema : json) :
  w_stderr (final (main gpt4 schema)) = [] ->
  (exists r1 r2 r3 r4 r5,
     map snd (w_api (final (main gpt4 schema)))
     = [Content r1; Content r2; Content r3; Content r4; Content r5] /\
     prompts schema (final (main gpt4 schema)) = [r1; r2; r4] /\
     w_stdout (final (main gpt4 schema))
     = ["BOT:" ++ show r1; "BOT:" ++ show r2; show r3; "BOT:" ++ show r4; show r5]) /\
  userSide schema (final (main gpt4 schema)) = scripted /\
  occurs "Prioritize required fields first" instruction = true /\
  occurs "tabOrder" instruction = false /\
  map order (Schema.fields jsonSchema) = [1; 2; 3]%Z /\
  map Schema.required (Schema.fields jsonSchema) = [true; true; false].
Proof.
  intros Hdone.
  destruct (completed_run gpt4 schema Hdone) as (r1 & r2 & r3 & r4 & r5 & Hw).
  rewrite Hw. split.
  - exists r1, r2, r3, r4, r5. repeat split; reflexivity.
  - repeat split; reflexivity.
Qed.

Lemma questions_are_the_replies_of_the_model_witness :
  w_stderr (final (main backwards jsonSchema)) = [] /\
  userSide jsonSchema (final (main backwards jsonSchema)) = scripted.
Proof.
  split; [reflexivity | ].
  apply (questions_are_the_replies_of_the_model backwards jsonSchema). reflexivity.
Defined.

(** ** The shipped schema in every run *)

(** The script holds one schema, the literal, and checks nothing about it;
    this is what that schema is like in every world of every run: ids
    pairwise distinct, tab orders pairwise distinct, and options on its
    one select field (type radio). *)
Lemma shipped_schema_is_well_formed (gpt4 : Model) :
  Forall (fun w =>
            NoDup (map Schema.id (Schema.fields (w_jsonSchema w))) /\
            NoDup (map Schema.tabOrder (Schema.fields (w_jsonSchema w))) /\
            map choices (Schema.fields (w_jsonSchema w))
            = [(Some (JStr "text"), 0); (Some (JStr "date"), 0); (Some (JStr "radio"), 3)])
         (start jsonSchema :: visited (program gpt4)).
Proof.
  unfold program.
  eapply Forall_impl; [ | exact (proj2 (main_keeps_schema gpt4 jsonSchema))].
  cbn beta. intros w ->.
  split; [ | split; [ | reflexivity]];
    repeat constructor; cbn; intuition discriminate.
Qed.

Lemma filter_none_of_subset {A} (P Q : A -> bool) (l : list A) :
  Forall (fun x => P x = false) l -> filter P (filter Q l) = [].
Proof.
  induction 1 as [ | x l Hx _ IH]; [reflexivity | ].
  cbn. destruct (Q x); [cbn; rewrite Hx | ]; exact IH.
Qed.

(** In every world of every run no field of any [selectOne] group holds a
    value; the only [selectOne] field of the shipped schema is field_03,
    alone in its group. *)
Lemma shipped_groups_hold_no_value (gpt4 : Model) (g : string) :
  map Schema.id (filter selectOne (Schema.fields jsonSchema)) = [Some (JStr "field_03")] /\
  Forall (fun w => holders g (w_jsonSchema w) = [])
         (start jsonSchema :: visited (program gpt4)).
Proof.
  split; [reflexivity | ].
  unfold program.
  eapply Forall_impl; [ | exact (proj2 (main_keeps_schema gpt4 jsonSchema))].
  cbn beta. intros w ->.
  unfold holders, members.
  apply filter_none_of_subset. repeat constructor.
Qed.

(** * Further properties of the script *)

(** ** Nothing written is taken back *)

Lemma prefixOf_refl {A} (l : list A) : prefixOf l l.
Proof. exists []. now rewrite app_nil_r. Qed.

Lemma prefixOf_snoc {A} (l : list A) (x : A) : prefixOf l (l ++ [x]).
Proof. now exists [x]. Qed.

Lemma prefixOf_trans {A} (l1 l2 l3 : list A) :
  prefixOf l1 l2 -> prefixOf l2 l3 -> prefixOf l1 l3.
Proof.
  intros [m1 ->] [m2 ->]. exists (m1 ++ m2)%list. now rewrite app_assoc.
Qed.

Lemma extends_trans : transitive World extends.
Proof.
  intros w1 w2 w3 (Hs & Hm & Ho & He & Ha) (Hs' & Hm' & Ho' & He' & Ha').
  repeat split; [congruence | eapply prefixOf_trans; eassumption ..].
Qed.

Section Pace.

Variable R : World -> World -> Prop.

Lemma sorted_join (t1 t2 : list World) (w : World) :
  Sorted R (w :: t1) -> Sorted R (last t1 w :: t2) -> Sorted R (w :: t1 ++ t2).
Proof.
  revert w; induction t1 as [ | x t1 IH]; intros w H1 H2; [exact H2 | ].
  apply Sorted_inv in H1 as [Hrest Hhd].
  apply HdRel_inv in Hhd.
  cbn [app]. constructor; [ | constructor; exact Hhd].
  apply IH; [exact Hrest | ].
  change (x :: t1) with ([x] ++ t1)%list in H2.
  now rewrite last_append in H2.
Qed.

Lemma paced_effect (f : World -> World) :
  (forall w, R w (f w)) -> paced R (effect f).
Proof. intros Hf w; cbn. repeat constructor. apply Hf. Qed.

Lemma paced_bind {A B} (m : M A) (k : A -> M B) :
  paced R m -> tracks m -> (forall a, paced R (k a)) -> paced R (bind m k).
Proof.
  intros Hm Ht Hk w. unfold bind.
  specialize (Hm w); specialize (Ht w).
  destruct (m w) as [[a | e] w1 t1]; cbn in *; [ | exact Hm].
  specialize (Hk a w1).
  destruct (k a w1) as [o w2 t2]; cbn in *.
  apply sorted_join; [exact Hm | now rewrite Ht].
Qed.

Lemma paced_try_catch {A} (body : M A) (handler : error -> M A) :
  paced R body -> tracks body -> (forall e, paced R (handler e)) ->
  paced R (try_catch body handler).
Proof.
  intros Hb Ht Hh w. unfold try_catch.
  specialize (Hb w); specialize (Ht w).
  destruct (body w) as [[a | e] w1 t1]; cbn in *; [exact Hb | ].
  specialize (Hh e w1).
  destruct (handler e w1) as [o w2 t2]; cbn in *.
  apply sorted_join; [exact Hb | now rewrite Ht].
Qed.

End Pace.

Lemma console_log_extends line w : extends w (final (console_log line w)).
Proof.
  cbn; repeat split; first [apply prefixOf_refl | apply prefixOf_snoc].
Qed.

Lemma console_error_extends what e w : extends w (final (console_error what e w)).
Proof.
  cbn; repeat split; first [apply prefixOf_refl | apply prefixOf_snoc].
Qed.

Lemma push_extends m w : extends w (final (push m w)).
Proof.
  cbn; repeat split; first [apply prefixOf_refl | apply prefixOf_snoc].
Qed.

Lemma create_extends gpt4 w : extends w (final (create gpt4 w)).
Proof.
  cbn; repeat split; first [apply prefixOf_refl | apply prefixOf_snoc].
Qed.

Lemma create_paced gpt4 : paced extends (create gpt4).
Proof.
  intro w; cbn.
  constructor; [repeat constructor | constructor; apply (create_extends gpt4 w)].
Qed.

Lemma getResponse_paced gpt4 : paced extends (getResponse gpt4).
Proof.
  unfold getResponse.
  apply paced_try_catch;
    [ | unfold console_log, push;
        repeat first [ apply tracks_bind | apply tracks_effect
                     | apply create_tracks | intro ]
      | intro e; apply paced_effect; intro w; apply (console_error_extends _ e w) ].
  repeat first
    [ apply paced_bind; [ | first [apply create_tracks | apply tracks_effect] | intro ]
    | apply create_paced
    | apply paced_effect; intro w;
      first [apply (console_log_extends _ w) | apply (push_extends _ w)] ].
Qed.

(** X1. Along a run nothing is taken back: each world the script goes
    through has the schema object of every earlier one, and a message
    log, a console (both streams) and a list of calls made that extend
    theirs at the end.  In particular the world the run ends in extends
    the one it started from: the opening message stays first on the log. *)
Theorem run_only_appends (gpt4 : Model) (schema : json) :
  StronglySorted extends (start schema :: visited (main gpt4 schema)) /\
  extends (start schema) (final (main gpt4 schema)).
Proof.
  assert (Hs : StronglySorted extends (start schema :: visited (main gpt4 schema)))
    by (apply (Sorted_StronglySorted extends_trans), getResponse_paced).
  split; [exact Hs | ].
  apply StronglySorted_inv in Hs as [_ Hall].
  unfold main in *.
  rewrite <- (getResponse_tracks gpt4 (start schema)).
  destruct (visited (getResponse gpt4 (start schema))) as [ | x t] eqn:Ht.
  - cbn. repeat split; apply prefixOf_refl.
  - rewrite Forall_forall in Hall. apply Hall.
    rewrite <- Ht.
    destruct (@exists_last _ (visited (getResponse gpt4 (start schema)))) as (l' & a & Hl);
      [rewrite Ht; discriminate | ].
    rewrite Hl, last_last. apply in_or_app; right; left; reflexivity.
Qed.

(** ** What the model is asked *)

Lemma messages_prefix_cons schema (rest : list message) :
  prefixOf (messages schema) (messages schema ++ rest).
Proof. now exists rest. Qed.

(** X2. Whatever the model does, it is called at least once and at most
    five times, and every request sent is to gpt-4, opens with the
    instruction message that carries the schema, and closes with a message
    of the user's role: the model is never asked right after a reply of
    its own. *)
Theorem every_request_is_well_formed (gpt4 : Model) (schema : json) :
  1 <= List.length (w_api (final (main gpt4 schema))) <= 5 /\
  Forall (fun x => wellFormed schema (fst x)) (w_api (final (main gpt4 schema))).
Proof.
  destruct (main_transcript gpt4 schema) as [_ T].
  destruct T; (split; [cbn; lia | ]);
    repeat (constructor;
            [ repeat split; [apply prefixOf_refl || apply messages_prefix_cons] | ]);
    constructor.
Qed.

(** X3. When a fourth call is made, it sends the very request of the third
    (lines 116 and 119): the reply to the date of birth is printed but not
    put on the log, so the model is asked the same question again. *)
Theorem fourth_call_repeats_the_third
    (gpt4 : Model) (schema : json) (q : request) (c : completion) :
  nth_error (w_api (final (main gpt4 schema))) 3 = Some (q, c) ->
  exists r3, nth_error (w_api (final (main gpt4 schema))) 2 = Some (q, Content r3).
Proof.
  destruct (main_transcript gpt4 schema) as [_ T].
  destruct T; cbn; intro Hq; try discriminate Hq;
    injection Hq as <- _; eexists; reflexivity.
Qed.

Lemma fourth_call_repeats_the_third_witness :
  nth_error (w_api (final (main courteous jsonSchema))) 3
  = Some (ask (log2 jsonSchema (Some "Thank you.") (Some "Thank you.")),
          Content (Some "Thank you.")) /\
  exists r3,
    nth_error (w_api (final (main courteous jsonSchema))) 2
    = Some (ask (log2 jsonSchema (Some "Thank you.") (Some "Thank you.")), Content r3).
Proof.
  split; [reflexivity | ].
  apply (fourth_call_repeats_the_third courteous jsonSchema _ (Content (Some "Thank you."))).
  reflexivity.
Defined.

(** ** What reaches the console *)

(** X4. Every call is accounted for on the console exactly once: the
    standard output holds one line per reply received, in order, the
    first, second and fourth marked [BOT:], the third and fifth bare; the
    error stream holds one entry per call that failed, which is at most
    one. *)
Theorem console_accounts_for_every_call (gpt4 : Model) (schema : json) :
  w_stdout (final (main gpt4 schema))
  = printedFrom 0 (replies (w_api (final (main gpt4 schema)))) /\
  List.length (w_stdout (final (main gpt4 schema)))
  + List.length (w_stderr (final (main gpt4 schema)))
  = List.length (w_api (final (main gpt4 schema))) /\
  List.length (w_stderr (final (main gpt4 schema))) <= 1.
Proof.
  destruct (main_transcript gpt4 schema) as [_ T].
  destruct T; repeat split; first [reflexivity | cbn; lia].
Qed.

(** ** What is on the log *)

(** X5. After the opening message the log is a sequence of exchanges, each
    a reply of the model followed by an answer of the script, as many as
    answers were sent: it never holds two messages of one role in a row,
    and an answer is only ever sent after a reply. *)
Theorem log_alternates (gpt4 : Model) (schema : json) :
  map role (appended schema (final (main gpt4 schema)))
  = turns (answersAfter (successes (final (main gpt4 schema)))) /\
  List.length (w_messages (final (main gpt4 schema)))
  = 1 + 2 * answersAfter (successes (final (main gpt4 schema))).
Proof.
  destruct (main_transcript gpt4 schema) as [_ T].
  destruct T; split; reflexivity.
Qed.

(** X6. The script puts no words in the model's mouth: every message of
    the assistant's role on the log is a completion the model returned to
    one of the calls, and it was shown on the console under the [BOT:]
    mark. *)
Theorem assistant_messages_are_replies (gpt4 : Model) (schema : json) :
  Forall (fun m =>
            In (content m) (replies (w_api (final (main gpt4 schema)))) /\
            In ("BOT:" ++ show (content m)) (w_stdout (final (main gpt4 schema))))
         (filter isAssistant (appended schema (final (main gpt4 schema)))).
Proof.
  destruct (main_transcript gpt4 schema) as [_ T].
  destruct T; cbn -[String.append];
    repeat (constructor; [split; cbn -[String.append]; tauto | ]);
    constructor.
Qed.

(** X7. A completion whose content is [null] is not a failure: the script
    prints [BOT:null], puts the empty reply on the log, answers it, and
    sends it back to the model with the second call. *)
Theorem null_reply_is_passed_on (gpt4 : Model) (schema : json) :
  gpt4 0 (ask (messages schema)) = Content None ->
  hd_error (w_stdout (final (main gpt4 schema))) = Some "BOT:null" /\
  exists c,
    nth_error (w_api (final (main gpt4 schema))) 1
    = Some (ask (messages schema ++ [said None; typed "Youdahe Asfaw"])%list, c).
Proof.
  intro Hnull.
  destruct (main_transcript gpt4 schema) as [_ T].
  destruct T;
    match goal with
    | E : gpt4 0 _ = _ |- _ => rewrite Hnull in E; try discriminate E; injection E as <-
    end;
    (split; [reflexivity | eexists; reflexivity]).
Qed.

Lemma null_reply_is_passed_on_witness :
  silentFirst 0 (ask (messages jsonSchema)) = Content None /\
  hd_error (w_stdout (final (main silentFirst jsonSchema))) = Some "BOT:null".
Proof.
  split; [reflexivity | ].
  apply (null_reply_is_passed_on silentFirst jsonSchema). reflexivity.
Defined.

(** ** What the log does not depend on *)

Section Discarded.

Variables g1 g2 : Model.
Variable schema : json.

Hypothesis same_elsewhere : forall n q, n <> 2 -> n <> 4 -> g1 n q = g2 n q.
Hypothesis same_failures : forall n q, succeeded (q, g1 n q) = succeeded (q, g2 n q).

(** Compare what the two models returned to the [n]-th call. *)
Ltac sync n :=
  match goal with
  | E1 : g1 n ?q = ?c1, E2 : g2 n ?q = ?c2 |- _ =>
      first
        [ let P := fresh "P" in
          assert (P : c1 = c2)
            by (rewrite <- E1, <- E2; apply same_elsewhere; discriminate);
          first [discriminate P | injection P as P; subst]
        | let P := fresh "P" in
          pose proof (same_failures n q) as P;
          unfold succeeded in P; cbn [snd] in P; rewrite E1, E2 in P;
          first [discriminate P | clear P] ]
  | _ => idtac
  end.

Lemma transcripts_share_their_log w1 w2 :
  Transcript g1 schema w1 -> Transcript g2 schema w2 ->
  w_messages w1 = w_messages w2.
Proof.
  intros T1 T2.
  destruct T1; destruct T2;
    sync 0; sync 1; sync 2; sync 3; sync 4; reflexivity.
Qed.

End Discarded.

(** X8. The replies to the third and to the fifth call reach the console
    and nothing else: two models that return the same to every other call,
    and fail on the same calls, leave the same message log, whatever they
    reply to these two. *)
Theorem log_ignores_third_and_fifth_reply (g1 g2 : Model) (schema : json) :
  (forall n q, n <> 2 -> n <> 4 -> g1 n q = g2 n q) ->
  (forall n q, succeeded (q, g1 n q) = succeeded (q, g2 n q)) ->
  w_messages (final (main g1 schema)) = w_messages (final (main g2 schema)).
Proof.
  intros Hsame Hfail.
  apply (transcripts_share_their_log g1 g2 schema Hsame Hfail);
    apply main_transcript.
Qed.

Lemma log_ignores_third_and_fifth_reply_witness :
  (forall n q, n <> 2 -> n <> 4 -> courteous n q = chatty n q) /\
  (forall n q, succeeded (q, courteous n q) = succeeded (q, chatty n q)) /\
  w_stdout (final (main courteous jsonSchema)) <> w_stdout (final (main chatty jsonSchema)) /\
  w_messages (final (main courteous jsonSchema)) = w_messages (final (main chatty jsonSchema)).
Proof.
  assert (H1 : forall n q, n <> 2 -> n <> 4 -> courteous n q = chatty n q)
    by (intros [ | [ | [ | [ | [ | n]]]]] q Hn2 Hn4;
        first [reflexivity | now elim Hn2 | now elim Hn4]).
  assert (H2 : forall n q, succeeded (q, courteous n q) = succeeded (q, chatty n q))
    by (intros [ | [ | [ | [ | [ | n]]]]] q; reflexivity).
  split; [exact H1 | split; [exact H2 | split; [discriminate | ]]].
  apply (log_ignores_third_and_fifth_reply courteous chatty jsonSchema H1 H2).
Defined.

(** ** The context given to the model *)

(** X9. The context given to the model never shrinks: the messages sent
    with a call are sent again, unchanged and in the same order, at the
    head of every later call. *)
Theorem context_only_grows (gpt4 : Model) (schema : json) :
  StronglySorted carries (w_api (final (main gpt4 schema))).
Proof.
  destruct (main_transcript gpt4 schema) as [_ T].
  destruct T; cbn [w_api final];
    repeat (constructor;
            [ | repeat (constructor;
                        [ unfold carries, ask, log3, log2, log1, messages;
                          cbn -[String.append Json.stringify instruction];
                          eexists; reflexivity | ]);
                constructor ]);
    constructor.
Qed.
